(** * The complaint model of public-complaint-ai-system

    A shallow embedding of [src/models/Complaint.js] (the Mongoose model of a
    complaint with its [pre('save')] hook and its two instance methods) and of
    the rate limiting set up by the server file that follows it.

    JavaScript numbers are IEEE 754 binary64 values, so scores are primitive
    floats and the comparisons are the IEEE ones; [undefined]/[null] is
    [None]; strings are [string]; [Date] values are milliseconds in [Z]. *)

From Stdlib Require Import ZArith NArith List String Ascii Bool Lia Floats.
From stdpp Require Import base option list strings gmap.
Import ListNotations.

Set Warnings "-inexact-float".
Local Open Scope string_scope.

(** ** JavaScript values *)

Module JS.

(** [ToBoolean] on a Number: [+0], [-0] and [NaN] are falsy. *)
Definition truthyNumber (x : float) : bool :=
  negb (x =? 0)%float && negb (is_nan x).

(** [ToBoolean] on a String: only the empty string is falsy. *)
Definition truthyString (s : string) : bool :=
  negb (String.eqb s "").

(** [x || d] where [x] is a Number or undefined. *)
Definition orNumber (x : option float) (d : float) : float :=
  match x with
  | Some v => if truthyNumber v then v else d
  | None => d
  end.

(** [a >= b] and [a <= b] on Numbers (false as soon as one side is NaN). *)
Definition ge (a b : float) : bool := (b <=? a)%float.
Definition le (a b : float) : bool := (a <=? b)%float.

(** [ToBoolean] on a String or undefined, as in [if (status)] and
    [!this.ticketId]. *)
Definition truthy (x : option string) : bool :=
  match x with
  | Some s => truthyString s
  | None => false
  end.

End JS.

(** ** The schema *)

(** [priority]: enum ['Low', 'Medium', 'High', 'Critical']. *)
Inductive Priority := Low | Medium | High | Critical.

Record UpdatedBy := mkUpdatedBy {
  ub_name : option string;
  ub_role : option string;
  ub_email : option string
}.

(** One element of [updates]. Its [status] is a plain String path: the
    schema puts no enum on it. *)
Record UpdateEntry := mkUpdateEntry {
  timestamp : Z;
  entry_status : option string;
  message : option string;
  updatedBy : option UpdatedBy;
  internal : bool
}.

Record Sentiment := mkSentiment {
  score : option float;
  label : option string;
  confidence : option float
}.

Record AiAnalysis := mkAiAnalysis {
  sentiment : Sentiment;
  urgencyScore : option float;
  suggestedCategory : option string;
  keyPhrases : list string;
  suggestedResponse : option string
}.

(** The document. [status] is a string and not an enumeration: [addUpdate]
    stores whatever string it is given, the enum is only checked when the
    document is validated. [aiAnalysis] and [aiAnalysis.sentiment] are
    nested paths, which a document always holds as objects, whatever is set
    inside. The paths that no method of the model reads or writes
    (complainant, assignedTo, attachments, location, resolution, feedback,
    github, relatedComplaints, the two timestamps) are left out. *)
Record Complaint := mkComplaint {
  title : option string;
  description : option string;
  category : option string;
  subcategory : option string;
  priority : Priority;
  aiAnalysis : AiAnalysis;
  status : string;
  ticketId : option string;
  updates : list UpdateEntry;
  isPublic : bool;
  isAnonymous : bool;
  tags : list string
}.

Definition set_priority (p : Priority) (c : Complaint) : Complaint :=
  mkComplaint (title c) (description c) (category c) (subcategory c) p
    (aiAnalysis c) (status c) (ticketId c) (updates c)
    (isPublic c) (isAnonymous c) (tags c).

Definition set_status (s : string) (c : Complaint) : Complaint :=
  mkComplaint (title c) (description c) (category c) (subcategory c)
    (priority c) (aiAnalysis c) s (ticketId c) (updates c)
    (isPublic c) (isAnonymous c) (tags c).

Definition set_ticketId (t : option string) (c : Complaint) : Complaint :=
  mkComplaint (title c) (description c) (category c) (subcategory c)
    (priority c) (aiAnalysis c) (status c) t (updates c)
    (isPublic c) (isAnonymous c) (tags c).

Definition set_updates (us : list UpdateEntry) (c : Complaint) : Complaint :=
  mkComplaint (title c) (description c) (category c) (subcategory c)
    (priority c) (aiAnalysis c) (status c) (ticketId c) us
    (isPublic c) (isAnonymous c) (tags c).

Definition set_scores (u s : option float) (c : Complaint) : Complaint :=
  let a := aiAnalysis c in
  let se := sentiment a in
  mkComplaint (title c) (description c) (category c) (subcategory c)
    (priority c)
    (mkAiAnalysis (mkSentiment s (label se) (confidence se)) u
       (suggestedCategory a) (keyPhrases a) (suggestedResponse a))
    (status c) (ticketId c) (updates c)
    (isPublic c) (isAnonymous c) (tags c).

(** The document [new Complaint({})] holds: every path at its schema default
    ([priority] 'Medium', [aiAnalysis.urgencyScore] 5, [status] 'submitted',
    [isPublic] true, [isAnonymous] false, arrays empty), the others unset. *)
Definition schemaDefaults : Complaint :=
  mkComplaint None None None None Medium
    (mkAiAnalysis (mkSentiment None None None) (Some 5%float) None [] None)
    "submitted" None [] true false [].

(** [status]: the eight values of the enum. *)
Definition statusValues : list string :=
  ["submitted"; "received"; "under_review"; "investigating";
   "pending_response"; "resolved"; "closed"; "escalated"].

Definition validStatus (s : string) : bool :=
  existsb (String.eqb s) statusValues.

(** ** The priority rules, as the specification words them *)

(** The rule table of the specification, read top to bottom, first match
    wins. It is kept apart from the method below, which is the code. *)
Definition ruleTable (urgency sentiment : float) : Priority :=
  if JS.ge urgency 8 || (JS.ge urgency 6 && JS.le sentiment (-0.5))
  then Critical
  else if JS.ge urgency 6 || (JS.ge urgency 4 && JS.le sentiment (-0.3))
  then High
  else if JS.ge urgency 3
  then Medium
  else Low.

(** Clamping a score to a closed range, of which the specification speaks;
    the method has no such step. On numbers this is
    [Math.min(hi, Math.max(lo, x))], NaN staying NaN. *)
Definition clamp (lo hi x : float) : float :=
  if (x <? lo)%float then lo else if (hi <? x)%float then hi else x.

(** ** Documents, the store and the methods *)

(** What [save] settles with: the promise resolves, or rejects with a
    validation error or with an error of the durable write. *)
Inductive SaveResult := Saved | ValidationError | PersistenceError.

(** The two readings a [pre('save')] run takes from its surroundings:
    [Date.now()] and the string [Math.random().toString(36)]. *)
Record HookEnv := mkHookEnv {
  dateNow : N;
  random36 : string
}.

(** [n.toString(36)] for a non-negative integer. *)
Definition digit36 (d : N) : ascii :=
  if (d <? 10)%N then ascii_of_N (48 + d) else ascii_of_N (97 + (d - 10)).

Fixpoint toString36_aux (fuel : nat) (n : N) (acc : string) : string :=
  match fuel with
  | O => acc
  | S fuel' =>
      let acc' := String (digit36 (n mod 36)) acc in
      if (n / 36 =? 0)%N then acc' else toString36_aux fuel' (n / 36) acc'
  end.

Definition toString36 (n : N) : string :=
  toString36_aux (S (N.to_nat (N.log2 n))) n "".

(** [toUpperCase] on the characters base 36 produces (ASCII letters). *)
Definition upperAscii (c : ascii) : ascii :=
  let n := N_of_ascii c in
  if ((97 <=? n) && (n <=? 122))%N then ascii_of_N (n - 32) else c.

Fixpoint toUpperCase (s : string) : string :=
  match s with
  | EmptyString => EmptyString
  | String c r => String (upperAscii c) (toUpperCase r)
  end.

(** [s.substring(a, b)] for [a <= b]. *)
Definition substring_js (a b : nat) (s : string) : string :=
  String.substring a (Nat.min b (String.length s) - a) s.

(** The [pre('save')] middleware:
    [if (!this.ticketId) { this.ticketId = `COMP-${timestamp}-${random}` }]. *)
Definition preSave (env : HookEnv) (this : Complaint) : Complaint :=
  if negb (JS.truthy (ticketId this)) then
    let timestamp := toUpperCase (toString36 (dateNow env)) in
    let random := toUpperCase (substring_js 2 8 (random36 env)) in
    set_ticketId (Some ("COMP-" ++ timestamp ++ "-" ++ random)) this
  else this.

(** One [addUpdate] call: its four arguments, the reading of [new Date()]
    and the readings of the [pre('save')] run behind it. *)
Record UpdateCall := mkUpdateCall {
  call_now : Z;
  call_env : HookEnv;
  call_status : option string;
  call_message : option string;
  call_updatedBy : option UpdatedBy;
  call_internal : option bool
}.

(** The element a call pushes on [updates]. *)
Definition entryOf (c : UpdateCall) : UpdateEntry :=
  mkUpdateEntry (call_now c) (call_status c) (call_message c)
    (call_updatedBy c) (default false (call_internal c)).

(** What the model is given by its surroundings: the durable write of the
    store behind it, which may fail, and the validators the schema declares
    on the paths other than [status] (required, maxlength, match, min and
    max, the category enum). *)
Class Backend (Store : Type) := mkBackend {
  write : Complaint -> Store -> option Store;
  otherPathsValid : Complaint -> bool
}.

Section Persistence.

Context {Store : Type} `{!Backend Store}.

(** A method runs on [this], the document in memory, next to the store. *)
Record World := mkWorld {
  this : Complaint;
  db : Store
}.

Definition M (A : Type) : Type := World -> A * World.

Definition ret {A} (a : A) : M A := fun w => (a, w).
Definition bind {A B} (m : M A) (k : A -> M B) : M B :=
  fun w => let (a, w') := m w in k a w'.
Definition getThis : M Complaint := fun w => (this w, w).
Definition modifyThis (f : Complaint -> Complaint) : M unit :=
  fun w => (tt, mkWorld (f (this w)) (db w)).

Notation "x <- m ;; k" := (bind m (fun x => k))
  (at level 100, m at next level, right associativity).
Notation "m ;;; k" := (bind m (fun _ => k))
  (at level 100, right associativity).

(** Document validation: the [status] enum and the other paths. *)
Definition validate (c : Complaint) : bool :=
  validStatus (status c) && otherPathsValid c.

(** Modelled from the spec: [Document.prototype.save] is Mongoose's and not
    part of the repository. It validates the document against the schema
    and rejects with a validation error without writing; otherwise it runs
    the [pre('save')] middleware and hands the document to the durable
    write, whose failure rejects the promise. Nothing is rolled back. *)
Definition save (env : HookEnv) : M SaveResult :=
  fun w =>
    if validate (this w) then
      let doc := preSave env (this w) in
      match write doc (db w) with
      | Some db' => (Saved, mkWorld doc db')
      | None => (PersistenceError, mkWorld doc (db w))
      end
    else (ValidationError, w).

(** [addUpdate(status, message, updatedBy, isInternal = false)]; [now] is
    the reading of [new Date()]. Under [if (status)] the status is a
    non-empty string. *)
Definition addUpdate (now : Z) (env : HookEnv)
    (status : option string) (message : option string)
    (updatedBy : option UpdatedBy) (isInternal : option bool)
    : M SaveResult :=
  modifyThis (fun this =>
    set_updates
      (updates this ++
         [mkUpdateEntry now status message updatedBy
            (default false isInternal)])%list
      this) ;;;
  (if JS.truthy status
   then modifyThis (set_status (default "" status))
   else ret tt) ;;;
  save env.

(** [calculatePriority()]. *)
Definition calculatePriority : M Priority :=
  this0 <- getThis ;;
  let urgencyScore := JS.orNumber (urgencyScore (aiAnalysis this0)) 5 in
  let sentimentScore := JS.orNumber (score (sentiment (aiAnalysis this0))) 0 in
  (if JS.ge urgencyScore 8
      || (JS.ge urgencyScore 6 && JS.le sentimentScore (-0.5))
   then modifyThis (set_priority Critical)
   else if JS.ge urgencyScore 6
      || (JS.ge urgencyScore 4 && JS.le sentimentScore (-0.3))
   then modifyThis (set_priority High)
   else if JS.ge urgencyScore 3
   then modifyThis (set_priority Medium)
   else modifyThis (set_priority Low)) ;;;
  this1 <- getThis ;;
  ret (priority this1).

(** A sequence of [addUpdate] calls on the same document, one after the
    other, with what each settled with. *)
Fixpoint addUpdates (cs : list UpdateCall) : M (list SaveResult) :=
  match cs with
  | [] => ret []
  | c :: cs' =>
      r <- addUpdate (call_now c) (call_env c) (call_status c)
             (call_message c) (call_updatedBy c) (call_internal c) ;;
      rs <- addUpdates cs' ;;
      ret (r :: rs)
  end.

(** A sequence of saves of the same document. *)
Fixpoint saves (envs : list HookEnv) : M (list SaveResult) :=
  match envs with
  | [] => ret []
  | env :: envs' =>
      r <- save env ;;
      rs <- saves envs' ;;
      ret (r :: rs)
  end.

End Persistence.

(** [category]: the twelve values of the enum; [aiAnalysis.sentiment.label]:
    the three values of the enum. *)
Definition categoryValues : list string :=
  ["Public Safety"; "Infrastructure"; "Transportation"; "Environmental";
   "Public Health"; "Government Services"; "Education"; "Housing";
   "Consumer Rights"; "Discrimination"; "Corruption"; "Other"].

Definition labelValues : list string := ["positive"; "negative"; "neutral"].

(** The validators of a path, which all but [required] pass a path that is
    not set: [maxlength], [enum], and [min] with [max]. [required] on a
    String path asks for a string that is not empty ([JS.truthy]). *)
Definition maxlength (n : nat) (x : option string) : bool :=
  match x with
  | Some v => Nat.leb (String.length v) n
  | None => true
  end.

Definition oneOf (values : list string) (x : option string) : bool :=
  match x with
  | Some v => existsb (String.eqb v) values
  | None => true
  end.

Definition within (lo hi : float) (x : option float) : bool :=
  match x with
  | Some v => JS.ge v lo && JS.le v hi
  | None => true
  end.

(** The validators the schema declares on the paths of the record other
    than [status], in schema order. The paths the record leaves out cannot
    be checked on it (of these, [complainant.name] and [complainant.email]
    are required): a document of the model is read with them validly set. *)
Definition schemaValidators (doc : Complaint) : bool :=
  JS.truthy (title doc) && maxlength 200 (title doc)
  && JS.truthy (description doc) && maxlength 5000 (description doc)
  && JS.truthy (category doc) && oneOf categoryValues (category doc)
  && maxlength 100 (subcategory doc)
  && within (-1) 1 (score (sentiment (aiAnalysis doc)))
  && oneOf labelValues (label (sentiment (aiAnalysis doc)))
  && within 0 1 (confidence (sentiment (aiAnalysis doc)))
  && within 0 10 (urgencyScore (aiAnalysis doc))
  && maxlength 2000 (suggestedResponse (aiAnalysis doc))
  && JS.truthy (ticketId doc).

(** A store that keeps every document written to it, and never fails; used
    to run the methods on concrete documents, under the schema's
    validators. *)
Definition memWrite (doc : Complaint) (st : list Complaint)
    : option (list Complaint) :=
  Some (doc :: st).

#[export] Instance memBackend : Backend (list Complaint) :=
  mkBackend (list Complaint) memWrite schemaValidators.

Arguments World Store : clear implicits.
Arguments M Store A : clear implicits.

(** A document at the schema defaults that has been given a ticket id, an
    empty store behind it. Its required paths are not set, so no save of it
    succeeds. *)
Definition created : World (list Complaint) :=
  mkWorld (set_ticketId (Some "COMP-M30CNB40-4FZYO8") schemaDefaults) [].

Definition someEnv : HookEnv := mkHookEnv 1730563200000 "0.4fzyo82mvyr".

(** Two calls: a transition to 'received', then an internal note; and a
    call with a status outside the enum. *)
Definition twoCalls : list UpdateCall :=
  [mkUpdateCall 1730563200000 someEnv (Some "received") (Some "logged") None None;
   mkUpdateCall 1730563260000 someEnv None (Some "note") None (Some true)].

(** How many calls of a run succeeded. *)
Definition successes (rs : list SaveResult) : nat :=
  length (List.filter (fun r => match r with Saved => true | _ => false end) rs).

Definition rejectedCall : UpdateCall :=
  mkUpdateCall 1730563200000 someEnv (Some "archived") (Some "done") None None.

(** ** Rate limiting *)

Module RateLimit.

(** The options the server passes to [new RateLimiterMemory(...)]. *)
Record Options := mkOptions {
  keyPrefix : string;
  points : nat;
  duration : Z
}.

(** [const rateLimiter = new RateLimiterMemory({ keyPrefix: 'middleware',
    points: 10, duration: 60 })]: 10 requests per 60 seconds. *)
Definition rateLimiter : Options := mkOptions "middleware" 10 60.

(** What the limiter keeps for one client key: the consumption counter of
    the current window and the time (milliseconds) the window elapses. *)
Record Budget := mkBudget {
  consumed : nat;
  windowEnd : Z
}.

Abbreviation Limiter := (gmap string Budget).

Inductive Outcome := Resolved | Rejected.

(** The entry of a key that still counts at time [now]: none once its
    window has elapsed. *)
Definition live (now : Z) (b : option Budget) : option Budget :=
  match b with
  | Some e => if (now <? windowEnd e)%Z then Some e else None
  | None => None
  end.

(** Modelled from the spec: [RateLimiterMemory.consume] comes from the
    rate-limiter-flexible package and is not part of the repository. Per
    client key there is a consumption counter that resets after the window
    elapses; a call either takes one unit of the remaining budget and is
    let in (the promise resolves), or, the budget being exhausted, is
    rejected without side effects. A window opens with the first call that finds none running
    and lasts [duration] seconds. *)
Definition consume (o : Options) (now : Z) (key : string) (l : Limiter)
    : Outcome * Limiter :=
  let b := default (mkBudget 0 (now + duration o * 1000)) (live now (l !! key)) in
  if (consumed b <? points o)%nat
  then (Resolved, <[key := mkBudget (S (consumed b)) (windowEnd b)]> l)
  else (Rejected, l).

(** What the middleware does with a request: hand it on with [next()], or
    answer it. *)
Inductive Handled := Next | Send (code : Z) (body : string).

(** [rateLimiterMiddleware]: [rateLimiter.consume(req.ip)], then [next()],
    or on rejection [res.status(429).send('Too Many Requests')]. *)
Definition rateLimiterMiddleware (now : Z) (ip : string) (l : Limiter)
    : Handled * Limiter :=
  match consume rateLimiter now ip l with
  | (Resolved, l') => (Next, l')
  | (Rejected, l') => (Send 429 "Too Many Requests", l')
  end.

(** A request as the limiter sees it: arrival time and client key. *)
Definition Request : Type := Z * string.

(** Serving a sequence of requests in order. *)
Fixpoint serve (l : Limiter) (rs : list Request) : list Handled * Limiter :=
  match rs with
  | [] => ([], l)
  | (now, ip) :: rs' =>
      let (h, l') := rateLimiterMiddleware now ip l in
      let (hs, l'') := serve l' rs' in
      (h :: hs, l'')
  end.

Definition isNext (h : Handled) : bool :=
  match h with Next => true | Send _ _ => false end.

(** How many requests of client [key] a run hands on. *)
Fixpoint admitted (key : string) (l : Limiter) (rs : list Request) : nat :=
  match rs with
  | [] => 0
  | (now, ip) :: rs' =>
      let (h, l') := rateLimiterMiddleware now ip l in
      (if isNext h && String.eqb ip key then 1 else 0) + admitted key l' rs'
  end.

End RateLimit.

(** A client that has used its budget at time 0. *)
Definition exhausted : gmap string RateLimit.Budget :=
  snd (RateLimit.serve ∅ (replicate 10 (0%Z, "203.0.113.7"))).

(** A client that has sent one request at time 0, and nineteen requests it
    then sends between 59.999 s and 60 s. *)
Definition oneServed : gmap string RateLimit.Budget :=
  snd (RateLimit.serve ∅ [(0%Z, "203.0.113.7")]).

Definition straddling : list RateLimit.Request :=
  replicate 9 (59999%Z, "203.0.113.7") ++ replicate 10 (60000%Z, "203.0.113.7").

(** ** Virtuals, queries and what the remaining facts are stated with *)

(** The position of a tier in the schema's enum
    ['Low', 'Medium', 'High', 'Critical']. *)
Definition rank (p : Priority) : nat :=
  match p with Low => 0 | Medium => 1 | High => 2 | Critical => 3 end.

(** What the virtual [ageInDays] yields: a number of days, or NaN. The
    third case stands for the differences of 2^53 milliseconds and more,
    where the doubles of the source round and no value is given here. *)
Inductive Age := Days (d : Z) | AgeNaN | Beyond.

(** The virtual [ageInDays]:
    [Math.floor((Date.now() - this.createdAt) / (1000 * 60 * 60 * 24))].
    Both times are [Date] values in milliseconds, integers that a double
    holds exactly; with [createdAt] not set the difference is NaN. Below
    2^53 the difference is exact and the floor of the quotient of the
    doubles is the quotient of the integers rounded down. *)
Definition ageInDays (now : Z) (createdAt : option Z) : Age :=
  match createdAt with
  | Some c =>
      if (Z.abs (now - c) <? 2 ^ 53)%Z
      then Days ((now - c) / (1000 * 60 * 60 * 24))%Z
      else Beyond
  | None => AgeNaN
  end.

(** [complainant.address]. *)
Record Address := mkAddress {
  street : option string;
  city : option string;
  state : option string;
  zipCode : option string;
  country : option string
}.

(** [parts.filter(Boolean)] on an array of strings and undefined. *)
Fixpoint filterBoolean (parts : list (option string)) : list string :=
  match parts with
  | [] => []
  | Some p :: rest =>
      if JS.truthyString p then p :: filterBoolean rest else filterBoolean rest
  | None :: rest => filterBoolean rest
  end.

(** The parts the virtual lists, in its order. *)
Definition addressParts (addr : Address) : list (option string) :=
  [street addr; city addr; state addr; zipCode addr; country addr].

(** The virtual [complainant.fullAddress]: [''] without an address, else
    the parts that are set, joined with [', ']. *)
Definition fullAddress (addr : option Address) : string :=
  match addr with
  | None => ""
  | Some a => String.concat ", " (filterBoolean (addressParts a))
  end.

(** The filter of [getByStatus(status)]: [this.find({ status })]. The sort
    on [createdAt] that follows orders the result and selects nothing. *)
Definition getByStatus_selects (st : string) (doc : Complaint) : bool :=
  String.eqb (status doc) st.

(** The filter of [getUrgentComplaints()]: priority in ['Critical', 'High']
    or urgency score at least 7, and status not in ['resolved', 'closed'].
    A document without urgency score does not match [$gte]. *)
Definition getUrgentComplaints_selects (doc : Complaint) : bool :=
  ((match priority doc with Critical | High => true | _ => false end)
   || (match urgencyScore (aiAnalysis doc) with
       | Some u => JS.ge u 7
       | None => false
       end))
  && negb (existsb (String.eqb (status doc)) ["resolved"; "closed"]).

(** The status a sequence of update entries leads to, starting from [s0]:
    each entry that carries a status sets it, as [addUpdate] does when it
    pushes the entry. *)
Definition replayStatus (s0 : string) (es : list UpdateEntry) : string :=
  fold_left
    (fun s e => if JS.truthy (entry_status e) then default "" (entry_status e) else s)
    es s0.

(** The value of a base-36 digit, in either case, and of a numeral:
    what [parseInt(s, 36)] reads back from a string of digits. *)
Definition digitValue36 (c : ascii) : N :=
  let n := N_of_ascii c in
  if ((48 <=? n) && (n <=? 57))%N then (n - 48)%N
  else if ((65 <=? n) && (n <=? 90))%N then (n - 55)%N
  else if ((97 <=? n) && (n <=? 122))%N then (n - 87)%N
  else 0%N.

Fixpoint parse36_from (acc : N) (s : string) : N :=
  match s with
  | EmptyString => acc
  | String c r => parse36_from (acc * 36 + digitValue36 c) r
  end.

Definition parse36 (s : string) : N := parse36_from 0 s.

(** The characters of a string. *)
Fixpoint chars (s : string) : list ascii :=
  match s with
  | EmptyString => []
  | String c r => c :: chars r
  end.

(** A digit or an upper-case letter; a lower-case letter. *)
Definition isUpper36 (c : ascii) : bool :=
  let n := N_of_ascii c in
  ((48 <=? n) && (n <=? 57) || (65 <=? n) && (n <=? 90))%N.

Definition isLower (c : ascii) : bool :=
  let n := N_of_ascii c in ((97 <=? n) && (n <=? 122))%N.

(** An address with two of its parts not set. *)
Definition someAddress : Address :=
  mkAddress (Some "1 Main St") None (Some "") (Some "12345")
    (Some "United States").

(** A document whose status is outside the enum, as a rejected call leaves
    it, and a call that carries no status. *)
Definition poisoned : World (list Complaint) :=
  mkWorld (set_status "archived" (this created)) [].

Definition noteCall : UpdateCall :=
  mkUpdateCall 1730563260000 someEnv None (Some "note") None None.

(** * Facts

    ** Order on binary64 values *)

Module FloatOrder.

Ltac cmp_cases :=
  repeat match goal with
  | H : context [Z.compare ?a ?b] |- _ => destruct (Z.compare_spec a b)
  | |- context [Z.compare ?a ?b] => destruct (Z.compare_spec a b)
  | H : context [Pos.compare_cont Eq ?a ?b] |- _ =>
      change (Pos.compare_cont Eq a b) with (Pos.compare a b) in *;
      destruct (Pos.compare_spec a b)
  | |- context [Pos.compare_cont Eq ?a ?b] =>
      change (Pos.compare_cont Eq a b) with (Pos.compare a b) in *;
      destruct (Pos.compare_spec a b)
  end.

Lemma SFleb_trans x y z :
  SFleb x y = true -> SFleb y z = true -> SFleb x z = true.
Proof.
  unfold SFleb, SFcompare.
  destruct x as [[]|[]| |[] m1 e1], y as [[]|[]| |[] m2 e2],
           z as [[]|[]| |[] m3 e3];
    try (intros; reflexivity); try (intros; discriminate);
    intros H1 H2; cmp_cases; subst; simpl in *;
    try reflexivity; try discriminate; try lia.
Qed.

Lemma leb_trans (x y z : float) :
  (x <=? y)%float = true -> (y <=? z)%float = true -> (x <=? z)%float = true.
Proof. rewrite !FloatAxioms.leb_spec. apply SFleb_trans. Qed.

Lemma ltb_leb (x y : float) :
  (x <? y)%float = true -> (x <=? y)%float = true.
Proof.
  rewrite FloatAxioms.ltb_spec, FloatAxioms.leb_spec. unfold SFltb, SFleb.
  destruct (SFcompare _ _) as [[]|]; congruence.
Qed.

(** an IEEE zero compares like [0] *)
Lemma leb_zero_l (x c : float) :
  (x =? 0)%float = true -> (x <=? c)%float = (0 <=? c)%float.
Proof.
  rewrite FloatAxioms.eqb_spec, !FloatAxioms.leb_spec.
  change (Prim2SF 0) with (S754_zero false).
  destruct (Prim2SF x) as [[]|[]| |[] m e], (Prim2SF c) as [[]|[]| |[] m' e'];
    unfold SFeqb, SFleb; simpl; try reflexivity; try discriminate.
Qed.

Lemma leb_nan_l (x c : float) : is_nan x = true -> (x <=? c)%float = false.
Proof.
  unfold is_nan. rewrite FloatAxioms.eqb_spec, FloatAxioms.leb_spec.
  destruct (Prim2SF x) as [[]|[]| |[] m e]; unfold SFeqb, SFleb; simpl;
    try discriminate; try reflexivity.
  all: rewrite ?Z.compare_refl, ?Pos.compare_cont_refl; simpl; try discriminate.
Qed.

Lemma leb_nan_r (x c : float) : is_nan x = true -> (c <=? x)%float = false.
Proof.
  unfold is_nan. rewrite FloatAxioms.eqb_spec, FloatAxioms.leb_spec.
  destruct (Prim2SF x) as [[]|[]| |[] m e]; unfold SFeqb, SFleb; simpl;
    try discriminate.
  all: rewrite ?Z.compare_refl, ?Pos.compare_cont_refl; simpl; try discriminate.
  all: destruct (Prim2SF c) as [[]|[]| |[] m' e']; reflexivity.
Qed.

End FloatOrder.

(** ** The classifier *)

Section Classifier.

Context {Store : Type}.
Implicit Types (w : World Store) (u s : float).

(** Reading a score with [|| 0] does not change how it compares with the
    two sentiment thresholds: a zero compares like [0], and NaN fails both
    tests as [0] does. *)
Lemma ruleTable_sentiment_default u s :
  ruleTable u (JS.orNumber (Some s) 0) = ruleTable u s.
Proof.
  unfold JS.orNumber, JS.truthyNumber.
  destruct (s =? 0)%float eqn:Hz; simpl.
  - unfold ruleTable, JS.le.
    rewrite !(FloatOrder.leb_zero_l s _ Hz). reflexivity.
  - destruct (is_nan s) eqn:Hn; simpl; [|reflexivity].
    unfold ruleTable, JS.le.
    rewrite !(FloatOrder.leb_nan_l s _ Hn). reflexivity.
Qed.

(** The method stores the tier of the rule table at the two scores it
    read, [urgencyScore || 5] and [sentiment.score || 0], and returns it;
    it touches nothing else. *)
Lemma calculatePriority_run w :
  calculatePriority w =
    (let p := ruleTable
                (JS.orNumber (urgencyScore (aiAnalysis (this w))) 5)
                (JS.orNumber (score (sentiment (aiAnalysis (this w)))) 0) in
     (p, mkWorld (set_priority p (this w)) (db w))).
Proof.
  unfold calculatePriority, bind, getThis, modifyThis, ret, ruleTable.
  cbv zeta.
  repeat match goal with
         | |- context [if ?b then _ else _] => destruct b
         end; reflexivity.
Qed.

(** On a score that is neither zero nor NaN the method follows the rule
    table; no range is needed. *)
Lemma calculatePriority_rule_table w u s :
  urgencyScore (aiAnalysis (this w)) = Some u ->
  score (sentiment (aiAnalysis (this w))) = Some s ->
  JS.truthyNumber u = true ->
  fst (calculatePriority w) = ruleTable u s.
Proof.
  intros Hu Hs Ht. rewrite calculatePriority_run. cbv zeta. simpl fst.
  rewrite Hu, Hs, ruleTable_sentiment_default.
  simpl. rewrite Ht. reflexivity.
Qed.

(** In range and not zero, the urgency score is read as it is. *)
Lemma calculatePriority_in_range w u s :
  urgencyScore (aiAnalysis (this w)) = Some u ->
  score (sentiment (aiAnalysis (this w))) = Some s ->
  JS.ge u 0 = true -> JS.le u 10 = true -> (u =? 0)%float = false ->
  fst (calculatePriority w) = ruleTable u s.
Proof.
  intros Hu Hs Hge _ Hz. apply calculatePriority_rule_table; try assumption.
  unfold JS.truthyNumber. rewrite Hz. simpl.
  destruct (is_nan u) eqn:Hn; [|reflexivity].
  unfold JS.ge in Hge. rewrite (FloatOrder.leb_nan_r u _ Hn) in Hge.
  discriminate.
Qed.

(** Clamping to a range leaves a threshold test alone when the
    threshold lies inside the range. *)
Lemma ge_clamp lo hi x c :
  (c <=? lo)%float = false -> (c <=? hi)%float = true ->
  JS.ge (clamp lo hi x) c = JS.ge x c.
Proof.
  intros Hlo Hhi. unfold clamp, JS.ge.
  destruct (x <? lo)%float eqn:H1.
  - rewrite Hlo. destruct (c <=? x)%float eqn:E; [|reflexivity].
    apply FloatOrder.ltb_leb in H1.
    rewrite (FloatOrder.leb_trans _ _ _ E H1) in Hlo. discriminate.
  - destruct (hi <? x)%float eqn:H2; [|reflexivity].
    rewrite Hhi. symmetry.
    apply FloatOrder.ltb_leb in H2.
    exact (FloatOrder.leb_trans _ _ _ Hhi H2).
Qed.

Lemma le_clamp lo hi x c :
  (lo <=? c)%float = true -> (hi <=? c)%float = false ->
  JS.le (clamp lo hi x) c = JS.le x c.
Proof.
  intros Hlo Hhi. unfold clamp, JS.le.
  destruct (x <? lo)%float eqn:H1.
  - rewrite Hlo. symmetry.
    apply FloatOrder.ltb_leb in H1.
    exact (FloatOrder.leb_trans _ _ _ H1 Hlo).
  - destruct (hi <? x)%float eqn:H2; [|reflexivity].
    rewrite Hhi. destruct (x <=? c)%float eqn:E; [|reflexivity].
    apply FloatOrder.ltb_leb in H2.
    rewrite (FloatOrder.leb_trans _ _ _ H2 E) in Hhi. discriminate.
Qed.

(** Every threshold of the rule table lies inside the documented ranges,
    so the table gives the same tier on the clamped scores. *)
Lemma ruleTable_clamp u s :
  ruleTable (clamp 0 10 u) (clamp (-1) 1 s) = ruleTable u s.
Proof.
  unfold ruleTable.
  rewrite !ge_clamp by reflexivity.
  rewrite !le_clamp by reflexivity.
  reflexivity.
Qed.

(** With an urgency score that is neither zero nor NaN, the method returns
    the tier of the clamped scores, in range or not. *)
Lemma calculatePriority_clamped w u s :
  urgencyScore (aiAnalysis (this w)) = Some u ->
  score (sentiment (aiAnalysis (this w))) = Some s ->
  JS.truthyNumber u = true ->
  fst (calculatePriority w) = ruleTable (clamp 0 10 u) (clamp (-1) 1 s).
Proof.
  intros. rewrite ruleTable_clamp.
  eapply calculatePriority_rule_table; eassumption.
Qed.

(** The four worked cases of the rule table. *)
Example calculatePriority_examples (d : Store) :
  let run u s :=
    fst (calculatePriority
           (mkWorld (set_scores (Some u) (Some s) schemaDefaults) d)) in
  run 9%float (-0.8)%float = Critical /\
  run 5%float 0.1%float = Medium /\
  run 6.5%float (-0.6)%float = Critical /\
  run 2%float 0%float = Low.
Proof. repeat split. Qed.

(** C1. Claimed: for every urgency score in [0,10] and sentiment score in
    [-1,1] the method returns the tier of the rule table. At urgency 0
    (in range) it does not: [0 || 5] reads the score as 5, so the method
    answers Medium where the rule table gives Low. *)
Theorem calculatePriority_urgency_zero (d : Store) :
  let w := mkWorld (set_scores (Some 0%float) (Some 0%float) schemaDefaults) d in
  (JS.ge 0 0 && JS.le 0 10 && JS.ge 0 (-1) && JS.le 0 1 = true) /\
  fst (calculatePriority w) = Medium /\
  ruleTable 0 0 = Low.
Proof. repeat split. Qed.

(** C7. Claimed: for all scores, in range or not, the method returns the
    tier of the rule table at the clamped scores. Clamping itself changes
    nothing (see [calculatePriority_clamped]); but the urgency 0, which
    clamps to itself, is read as 5: at sentiment -1 the method answers High
    where the rule table at the clamped scores gives Low. *)
Theorem calculatePriority_not_clamped_zero (d : Store) :
  let w := mkWorld (set_scores (Some 0%float) (Some (-1)%float) schemaDefaults) d in
  clamp 0 10 0 = 0%float /\
  clamp (-1) 1 (-1) = (-1)%float /\
  fst (calculatePriority w) = High /\
  ruleTable (clamp 0 10 0) (clamp (-1) 1 (-1)) = Low.
Proof. repeat split. Qed.

(** C8. With the urgency score absent the method classifies with urgency 5,
    with the sentiment score absent with sentiment 0, and with both absent
    it returns Medium; it is a total function, so it always returns. *)
Theorem calculatePriority_defaults w :
  (urgencyScore (aiAnalysis (this w)) = None ->
   fst (calculatePriority w) =
     ruleTable 5 (JS.orNumber (score (sentiment (aiAnalysis (this w)))) 0)) /\
  (score (sentiment (aiAnalysis (this w))) = None ->
   fst (calculatePriority w) =
     ruleTable (JS.orNumber (urgencyScore (aiAnalysis (this w))) 5) 0) /\
  (urgencyScore (aiAnalysis (this w)) = None ->
   score (sentiment (aiAnalysis (this w))) = None ->
   fst (calculatePriority w) = Medium).
Proof.
  rewrite calculatePriority_run. cbv zeta. simpl fst.
  repeat split.
  - intros ->. reflexivity.
  - intros ->. reflexivity.
  - intros -> ->. reflexivity.
Qed.

(** C9, as amended. The method writes the tier it computed to the
    [priority] field of the document, leaves every other field as it was,
    and does not touch the store. *)
Theorem calculatePriority_frame w :
  let (p, w') := calculatePriority w in
  this w' = set_priority p (this w) /\ db w' = db w.
Proof. rewrite calculatePriority_run. cbv zeta. split; reflexivity. Qed.

End Classifier.

Lemma calculatePriority_defaults_witness :
  fst (calculatePriority (mkWorld (set_scores None None schemaDefaults) tt))
    = Medium.
Proof.
  exact (proj2 (proj2 (calculatePriority_defaults
                         (mkWorld (set_scores None None schemaDefaults) tt)))
           eq_refl eq_refl).
Defined.

(** C9. Claimed: computing the tier leaves every field unchanged, the
    priority field included. A document at its default priority Medium with
    scores 9 and -0.8 holds Critical afterwards. *)
Lemma calculatePriority_writes_priority :
  let w := mkWorld (set_scores (Some 9%float) (Some (-0.8)%float) schemaDefaults) tt in
  priority (this w) = Medium /\
  priority (this (snd (calculatePriority w))) = Critical /\
  this (snd (calculatePriority w)) <> this w.
Proof. repeat split. discriminate. Qed.

(** C10. The schema default of [priority] is Medium, and Medium is what
    the classifier returns at urgency 5 and sentiment 0: on every document,
    whatever priority it holds, with the scores 5 and 0, or with the score 5
    of the schema default and no sentiment score, the method returns Medium
    and stores Medium; so it leaves a document at the schema defaults as it
    is. *)
Theorem default_priority_consistent (Store : Type) (d : Store) (doc : Complaint) :
  priority schemaDefaults = Medium /\
  ruleTable 5 0 = Medium /\
  calculatePriority (mkWorld (set_scores (Some 5%float) (Some 0%float) doc) d)
    = (Medium,
       mkWorld (set_priority Medium (set_scores (Some 5%float) (Some 0%float) doc)) d) /\
  calculatePriority (mkWorld (set_scores (Some 5%float) None doc) d)
    = (Medium,
       mkWorld (set_priority Medium (set_scores (Some 5%float) None doc)) d) /\
  calculatePriority (mkWorld schemaDefaults d)
    = (Medium, mkWorld schemaDefaults d).
Proof.
  split; [reflexivity|]. split; [reflexivity|].
  split; [|split]; rewrite calculatePriority_run; reflexivity.
Qed.

(** ** Ticket ids, updates and saving *)

Section PersistenceFacts.

Context {Store : Type} `{!Backend Store}.

Implicit Types (w : World Store) (doc : Complaint) (env : HookEnv).

(** *** The [pre('save')] hook *)

Lemma preSave_keeps env doc :
  JS.truthy (ticketId doc) = true -> preSave env doc = doc.
Proof. intros H. unfold preSave. rewrite H. reflexivity. Qed.

Lemma preSave_truthy env doc :
  JS.truthy (ticketId (preSave env doc)) = true.
Proof.
  unfold preSave. destruct (JS.truthy (ticketId doc)) eqn:H; simpl.
  - exact H.
  - reflexivity.
Qed.

Lemma preSave_only_ticketId env doc :
  preSave env doc = set_ticketId (ticketId (preSave env doc)) doc.
Proof.
  unfold preSave. destruct (JS.truthy (ticketId doc)); simpl.
  - destruct doc; reflexivity.
  - reflexivity.
Qed.

(** *** [save] and the methods keep an assigned ticket id *)

Lemma save_ticketId env w :
  JS.truthy (ticketId (this w)) = true ->
  ticketId (this (snd (save env w))) = ticketId (this w).
Proof.
  intros H. unfold save.
  destruct (validate _); [|reflexivity].
  rewrite (preSave_keeps _ _ H).
  destruct (write _ _); reflexivity.
Qed.

Lemma save_updates env w :
  updates (this (snd (save env w))) = updates (this w).
Proof.
  unfold save.
  destruct (validate _); [|reflexivity].
  rewrite preSave_only_ticketId.
  destruct (write _ _); reflexivity.
Qed.

Lemma save_status env w :
  status (this (snd (save env w))) = status (this w).
Proof.
  unfold save. destruct (validate _); [|reflexivity].
  rewrite preSave_only_ticketId. destruct (write _ _); reflexivity.
Qed.

Lemma saves_ticketId envs w :
  JS.truthy (ticketId (this w)) = true ->
  ticketId (this (snd (saves envs w))) = ticketId (this w).
Proof.
  revert w. induction envs as [|env envs IH]; intros w H; [reflexivity|].
  cbn [saves]. unfold bind.
  pose proof (save_ticketId env w H) as Hs.
  destruct (save env w) as [r w1]. simpl in Hs.
  assert (H1 : JS.truthy (ticketId (this w1)) = true) by (rewrite Hs; exact H).
  specialize (IH w1 H1).
  destruct (saves envs w1) as [rs w2]. simpl in *. congruence.
Qed.

(** *** [addUpdate] *)

(** The call mutates the document, then saves what it mutated. *)
Lemma addUpdate_run now env st msg by_ int w :
  addUpdate now env st msg by_ int w =
    save env
      (mkWorld
         (let doc :=
            set_updates
              (updates (this w) ++
                 [mkUpdateEntry now st msg by_ (default false int)])%list
              (this w) in
          if JS.truthy st then set_status (default "" st) doc else doc)
         (db w)).
Proof.
  unfold addUpdate, bind, modifyThis, ret. cbv zeta.
  destruct (JS.truthy st); reflexivity.
Qed.

Lemma addUpdate_appends now env st msg by_ int w :
  updates (this (snd (addUpdate now env st msg by_ int w))) =
    (updates (this w) ++ [mkUpdateEntry now st msg by_ (default false int)])%list.
Proof.
  rewrite addUpdate_run, save_updates. cbv zeta. simpl.
  destruct (JS.truthy st); reflexivity.
Qed.

Lemma addUpdate_ticketId now env st msg by_ int w :
  JS.truthy (ticketId (this w)) = true ->
  ticketId (this (snd (addUpdate now env st msg by_ int w))) =
    ticketId (this w).
Proof.
  intros H. rewrite addUpdate_run, save_ticketId; cbv zeta; simpl;
    destruct (JS.truthy st); auto.
Qed.

Lemma addUpdates_ticketId cs w :
  JS.truthy (ticketId (this w)) = true ->
  ticketId (this (snd (addUpdates cs w))) = ticketId (this w).
Proof.
  revert w. induction cs as [|c cs IH]; intros w H; [reflexivity|].
  cbn [addUpdates]. unfold bind.
  pose proof (addUpdate_ticketId (call_now c) (call_env c) (call_status c)
                (call_message c) (call_updatedBy c) (call_internal c) w H) as Hc.
  destruct (addUpdate _ _ _ _ _ _ w) as [r w1]. simpl in Hc.
  assert (H1 : JS.truthy (ticketId (this w1)) = true) by (rewrite Hc; exact H).
  specialize (IH w1 H1).
  destruct (addUpdates cs w1) as [rs w2]. simpl in *. congruence.
Qed.

Lemma addUpdates_append cs w :
  updates (this (snd (addUpdates cs w))) =
    (updates (this w) ++ map entryOf cs)%list.
Proof.
  revert w. induction cs as [|c cs IH]; intros w.
  - simpl. rewrite app_nil_r. reflexivity.
  - cbn [addUpdates map]. unfold bind.
    pose proof (addUpdate_appends (call_now c) (call_env c) (call_status c)
                  (call_message c) (call_updatedBy c) (call_internal c) w) as Hc.
    destruct (addUpdate _ _ _ _ _ _ w) as [r w1]. simpl in Hc.
    specialize (IH w1).
    destruct (addUpdates cs w1) as [rs w2]. simpl in *.
    rewrite IH, Hc, <- app_assoc. reflexivity.
Qed.

Lemma addUpdates_results cs w :
  length (fst (addUpdates cs w)) = length cs.
Proof.
  revert w. induction cs as [|c cs IH]; intros w; [reflexivity|].
  cbn [addUpdates]. unfold bind.
  destruct (addUpdate _ _ _ _ _ _ w) as [r w1].
  specialize (IH w1).
  destruct (addUpdates cs w1) as [rs w2]. simpl in *. congruence.
Qed.

(** C2, as amended. With a non-empty status string outside the enum the
    call fails with the validation error and the store is left as it was;
    the document in memory is not restored: it holds the new entry at the
    end of [updates] and the rejected string in [status]. With the empty
    string, which is outside the enum too, the entry is pushed, [status] is
    not overwritten and the string is not validated: the call is the save
    of that document, and it fails with the validation error exactly when
    the document fails validation. *)
Theorem addUpdate_rejected_status now env s msg by_ int w :
  validStatus s = false ->
  let r := addUpdate now env (Some s) msg by_ int w in
  let pushed :=
    set_updates
      (updates (this w) ++
         [mkUpdateEntry now (Some s) msg by_ (default false int)])%list
      (this w) in
  (JS.truthyString s = true ->
   r = (ValidationError, mkWorld (set_status s pushed) (db w))) /\
  (JS.truthyString s = false ->
   r = save env (mkWorld pushed (db w)) /\
   status (this (snd r)) = status (this w) /\
   (fst r = ValidationError <-> validate pushed = false)).
Proof.
  intros Hv. cbv zeta. rewrite addUpdate_run. cbv zeta. simpl JS.truthy.
  split; intros Hs; rewrite Hs.
  - unfold save, validate. simpl. rewrite Hv. reflexivity.
  - split; [reflexivity|]. split; [rewrite save_status; reflexivity|].
    unfold save. cbn [this].
    destruct (validate _); [|split; reflexivity].
    destruct (write _ _); simpl; split; discriminate.
Qed.

(** C4, as amended. A run of [addUpdate] calls, whether they succeed or
    are rejected, leaves [updates] as it was, followed by one entry per call
    in call order: every entry present before keeps its position and
    content, and the sequence has grown by the number of calls made. *)
Theorem updates_append_only cs w :
  updates (this (snd (addUpdates cs w))) =
    (updates (this w) ++ map entryOf cs)%list /\
  (forall i e, updates (this w) !! i = Some e ->
               updates (this (snd (addUpdates cs w))) !! i = Some e) /\
  length (updates (this (snd (addUpdates cs w)))) =
    length (updates (this w)) + length cs /\
  length (fst (addUpdates cs w)) = length cs.
Proof.
  pose proof (addUpdates_append cs w) as Happ.
  split; [exact Happ|]. split; [|split].
  - intros i e Hi. rewrite Happ. apply lookup_app_l_Some. exact Hi.
  - rewrite Happ, length_app, length_map. reflexivity.
  - apply addUpdates_results.
Qed.

(** C5. The hook assigns an id only to a document that has none and leaves
    a document that has one as it is: running it again, with any clock and
    any random draw, changes nothing, and no later save or [addUpdate]
    changes the id. *)
Theorem preSave_idempotent env1 env2 doc :
  preSave env2 (preSave env1 doc) = preSave env1 doc /\
  (JS.truthy (ticketId doc) = true -> preSave env1 doc = doc) /\
  (JS.truthy (ticketId doc) = false ->
   ticketId (preSave env1 doc) =
     Some ("COMP-" ++ toUpperCase (toString36 (dateNow env1)) ++ "-"
             ++ toUpperCase (substring_js 2 8 (random36 env1)))) /\
  (forall envs d,
     ticketId (this (snd (saves envs (mkWorld (preSave env1 doc) d)))) =
       ticketId (preSave env1 doc)) /\
  (forall cs d,
     ticketId (this (snd (addUpdates cs (mkWorld (preSave env1 doc) d)))) =
       ticketId (preSave env1 doc)).
Proof.
  split; [|split; [|split; [|split]]].
  - apply preSave_keeps, preSave_truthy.
  - apply preSave_keeps.
  - intros H. unfold preSave. rewrite H. reflexivity.
  - intros envs d. apply (saves_ticketId envs (mkWorld (preSave env1 doc) d)).
    apply preSave_truthy.
  - intros cs d.
    apply (addUpdates_ticketId cs (mkWorld (preSave env1 doc) d)).
    apply preSave_truthy.
Qed.

End PersistenceFacts.

Lemma addUpdate_rejected_status_witness :
  addUpdate 1730563200000 someEnv (Some "archived") (Some "done") None None
    created =
  (ValidationError,
   mkWorld
     (set_status "archived"
        (set_updates
           (updates (this created) ++
              [mkUpdateEntry 1730563200000 (Some "archived") (Some "done") None
                 (default false None)])%list
           (this created)))
     (db created)).
Proof.
  exact (proj1 (addUpdate_rejected_status 1730563200000 someEnv "archived"
                  (Some "done") None None created eq_refl) eq_refl).
Defined.

(** C2. Claimed: a call with a status string outside the enum fails with
    the validation error and leaves the record unchanged. The call with
    'archived' fails, and the document then holds status 'archived' and one
    update where it held 'submitted' and none. *)
Lemma addUpdate_rejection_mutates :
  let r := addUpdate 1730563200000 someEnv (Some "archived") (Some "done")
             None None created in
  validStatus "archived" = false /\
  fst r = ValidationError /\
  status (this created) = "submitted" /\
  status (this (snd r)) = "archived" /\
  length (updates (this created)) = 0 /\
  length (updates (this (snd r))) = 1.
Proof. repeat split. Qed.

(** C4. Claimed: after N successful calls the sequence has exactly N
    entries. A single call, rejected for its status, is a run with no
    successful call, and the sequence, empty before, then has one entry. *)
Lemma rejected_call_appends :
  let r := addUpdates [rejectedCall] created in
  updates (this created) = [] /\
  fst r = [ValidationError] /\
  successes (fst r) = 0 /\
  length (updates (this (snd r))) = 1.
Proof. repeat split. Qed.

Lemma updates_append_only_witness :
  updates (this (snd (addUpdates twoCalls (snd (addUpdates [rejectedCall] created)))))
    !! 0 = Some (entryOf rejectedCall).
Proof.
  exact (proj1 (proj2 (updates_append_only twoCalls
                         (snd (addUpdates [rejectedCall] created))))
           0 (entryOf rejectedCall) eq_refl).
Defined.

Lemma preSave_idempotent_witness :
  preSave someEnv (this created) = this created.
Proof.
  exact (proj1 (proj2 (preSave_idempotent someEnv someEnv (this created)))
           eq_refl).
Defined.

(** ** Rate limiting *)

Section RateLimitFacts.

Import RateLimit.

Implicit Types (l : Limiter) (k ip : string) (now t e : Z) (c : nat)
  (rs : list Request).

(** The length of a window in milliseconds. *)
Local Abbreviation windowMs := (duration rateLimiter * 1000)%Z.

Lemma middleware_other now ip k l :
  ip <> k -> snd (rateLimiterMiddleware now ip l) !! k = l !! k.
Proof.
  intros Hne. unfold rateLimiterMiddleware, consume.
  destruct (_ <? _)%nat; simpl; [|reflexivity].
  apply lookup_insert_ne. exact Hne.
Qed.

(** A request inside a running window: admitted while budget is left, and
    then counted; rejected otherwise, and then nothing changes. *)
Lemma middleware_live now k l c e :
  l !! k = Some (mkBudget c e) -> (now < e)%Z ->
  rateLimiterMiddleware now k l =
    if (c <? points rateLimiter)%nat
    then (Next, <[k := mkBudget (S c) e]> l)
    else (Send 429 "Too Many Requests", l).
Proof.
  intros Hk Hlt. unfold rateLimiterMiddleware, consume.
  rewrite Hk. unfold live. simpl windowEnd.
  destruct (Z.ltb_spec now e) as [_|]; [|lia]. simpl.
  destruct (_ <? _)%nat; reflexivity.
Qed.

(** A request that finds no running window opens one and is admitted. *)
Lemma middleware_fresh now k l :
  live now (l !! k) = None ->
  rateLimiterMiddleware now k l =
    (Next, <[k := mkBudget 1 (now + windowMs)]> l).
Proof.
  intros Hk. unfold rateLimiterMiddleware, consume. rewrite Hk. reflexivity.
Qed.

Lemma live_None_later t now (b : option Budget) :
  live t b = None -> (t <= now)%Z -> live now b = None.
Proof.
  destruct b as [[c e]|]; [|reflexivity]. unfold live. simpl.
  destruct (Z.ltb_spec t e); [discriminate|].
  destruct (Z.ltb_spec now e); [lia|reflexivity].
Qed.

(** Within a running window that has counted [c] requests, at most what is
    left of the budget is admitted. *)
Lemma admitted_live k rs : forall l c e,
  l !! k = Some (mkBudget c e) ->
  Forall (fun r : Request => (r.1 < e)%Z) rs ->
  admitted k l rs <= points rateLimiter - c.
Proof.
  induction rs as [|[now ip] rs IH]; intros l c e Hk Hrs; [simpl; lia|].
  apply Forall_cons in Hrs as [Hnow Hrs]. simpl in Hnow.
  cbn [admitted].
  destruct (String.eqb_spec ip k) as [->|Hne].
  - rewrite (middleware_live now k l c e Hk Hnow).
    destruct (Nat.ltb_spec c (points rateLimiter)) as [Hc|Hc].
    + cbn [isNext andb].
      assert (Hk' : <[k := mkBudget (S c) e]> l !! k = Some (mkBudget (S c) e))
        by apply lookup_insert_eq.
      specialize (IH _ _ _ Hk' Hrs). lia.
    + cbn [isNext andb]. specialize (IH _ _ _ Hk Hrs). lia.
  - pose proof (middleware_other now ip k l Hne) as Ho.
    destruct (rateLimiterMiddleware now ip l) as [h l']. simpl in Ho.
    rewrite andb_false_r. rewrite Hk in Ho.
    specialize (IH _ _ _ Ho Hrs). lia.
Qed.

(** From a time [t] at which no window runs for the key, at most the whole
    budget is admitted during the [duration] seconds that follow. *)
Lemma admitted_fresh k t rs : forall l,
  live t (l !! k) = None ->
  Forall (fun r : Request => (t <= r.1 < t + windowMs)%Z) rs ->
  admitted k l rs <= points rateLimiter.
Proof.
  induction rs as [|[now ip] rs IH]; intros l Hk Hrs; [simpl; lia|].
  apply Forall_cons in Hrs as [Hnow Hrs]. simpl in Hnow.
  cbn [admitted].
  destruct (String.eqb_spec ip k) as [->|Hne].
  - rewrite (middleware_fresh now k l) by (apply (live_None_later t); [exact Hk|lia]).
    cbn [isNext andb].
    assert (Hin : admitted k (<[k := mkBudget 1 (now + windowMs)]> l) rs
                  <= points rateLimiter - 1).
    { apply (admitted_live k rs _ 1 (now + windowMs)%Z).
      - apply lookup_insert_eq.
      - eapply Forall_impl; [exact Hrs|]. intros r Hr. simpl in Hr |- *. lia. }
    simpl points in *. lia.
  - pose proof (middleware_other now ip k l Hne) as Ho.
    destruct (rateLimiterMiddleware now ip l) as [h l']. simpl in Ho.
    rewrite andb_false_r. rewrite <- Ho in Hk.
    specialize (IH _ Hk Hrs). lia.
Qed.

(** C3, as amended. Whatever was served before (any state of the
    limiter), for every client key: from a time at which no window is running for the key, at
    most 10 of its requests are handed on during the next 60 seconds; in a
    window that is running, at most what its counter leaves of the 10; and a
    request arriving in a running window whose budget is used up is
    answered 429 'Too Many Requests' and leaves the limiter as it was. *)
Theorem never_over_admits k l rs :
  (forall t,
     live t (l !! k) = None ->
     Forall (fun r : Request => (t <= r.1 < t + 60000)%Z) rs ->
     admitted k l rs <= 10) /\
  (forall c e,
     l !! k = Some (mkBudget c e) ->
     Forall (fun r : Request => (r.1 < e)%Z) rs ->
     admitted k l rs <= 10 - c) /\
  (forall now c e,
     l !! k = Some (mkBudget c e) -> (now < e)%Z -> 10 <= c ->
     rateLimiterMiddleware now k l = (Send 429 "Too Many Requests", l)).
Proof.
  split; [|split].
  - intros t Hk Hrs. exact (admitted_fresh k t rs l Hk Hrs).
  - intros c e Hk Hrs. exact (admitted_live k rs l c e Hk Hrs).
  - intros now c e Hk Hlt Hc. rewrite (middleware_live now k l c e Hk Hlt).
    destruct (Nat.ltb_spec c (points rateLimiter)) as [Hc'|_]; [|reflexivity].
    simpl in Hc'. lia.
Qed.

(** C6. Once the window of a key has elapsed, whatever its counter had
    reached, the next request of the key is handed on, and the key starts a
    new window with that one request counted. *)
Theorem window_reset now k l c e :
  l !! k = Some (mkBudget c e) -> (e <= now)%Z ->
  rateLimiterMiddleware now k l =
    (Next, <[k := mkBudget 1 (now + 60000)]> l).
Proof.
  intros Hk He. apply middleware_fresh. rewrite Hk. unfold live. simpl.
  destruct (Z.ltb_spec now e); [lia|reflexivity].
Qed.

End RateLimitFacts.

Example exhausted_then_reset :
  fst (RateLimit.serve exhausted
         [(59999%Z, "203.0.113.7"); (60000%Z, "203.0.113.7")]) =
    [RateLimit.Send 429 "Too Many Requests"; RateLimit.Next].
Proof. vm_compute. reflexivity. Qed.

Lemma never_over_admits_witness :
  RateLimit.admitted "203.0.113.7" ∅
    (replicate 12 (5%Z, "203.0.113.7") ++ [(60004%Z, "203.0.113.7")]) <= 10.
Proof.
  apply (proj1 (never_over_admits "203.0.113.7" ∅ _) 5%Z).
  - reflexivity.
  - repeat (apply Forall_cons_2; [simpl; lia|]). apply Forall_nil_2.
Defined.

Lemma window_reset_witness :
  RateLimit.rateLimiterMiddleware 60000 "203.0.113.7" exhausted =
    (RateLimit.Next,
     <["203.0.113.7" := RateLimit.mkBudget 1 120000]> exhausted).
Proof.
  apply (window_reset 60000 "203.0.113.7" exhausted 10 60000).
  - vm_compute. reflexivity.
  - lia.
Defined.

(** C3. Claimed: never more than 10 calls admitted for a key within any
    single 60-second window. The windows of the limiter are fixed: a client
    served once at time 0 has nine requests left until 60 s and ten more
    from 60 s on, so in the 60 seconds from 59.999 s all nineteen of its
    requests are handed on. *)
Lemma straddling_window_admits_more :
  forallb (fun r : RateLimit.Request =>
             (59999 <=? r.1)%Z && (r.1 <? 59999 + 60000)%Z) straddling = true /\
  RateLimit.admitted "203.0.113.7" oneServed straddling = 19 /\
  ~ RateLimit.admitted "203.0.113.7" oneServed straddling <= 10.
Proof. vm_compute. repeat split. lia. Qed.

(** ** More on ticket ids *)

Section TicketIds.

Implicit Types (n acc v : N) (s t : string) (c : ascii) (env : HookEnv)
  (doc : Complaint).

Lemma digit36_upper (d : N) :
  (d < 36)%N ->
  digitValue36 (upperAscii (digit36 d)) = d /\
  isUpper36 (upperAscii (digit36 d)) = true.
Proof.
  intros H. destruct d as [|p]; [split; reflexivity|].
  do 6 (destruct p as [p|p|]; try lia; try (split; reflexivity)).
Qed.

Lemma upperAscii_not_lower c : isLower (upperAscii c) = false.
Proof. destruct c as [[] [] [] [] [] [] [] []]; reflexivity. Qed.

(** Reading back what the conversion wrote before [acc] gives [n]. *)
Lemma parse36_toString36_aux (fuel : nat) : forall n (acc : string),
  (n < 36 ^ N.of_nat fuel)%N ->
  parse36_from 0 (toUpperCase (toString36_aux fuel n acc)) =
    parse36_from n (toUpperCase acc).
Proof.
  induction fuel as [|fuel IH]; intros n acc Hn.
  - simpl in *. replace n with 0%N by lia. reflexivity.
  - cbn [toString36_aux]. cbv zeta.
    assert (Hd : (n mod 36 < 36)%N) by (apply N.mod_lt; lia).
    destruct (digit36_upper _ Hd) as [Hv _].
    pose proof (N.div_mod n 36 ltac:(lia)) as Hdm.
    destruct (N.eqb_spec (n / 36) 0) as [Hz|Hz].
    + cbn [toUpperCase parse36_from]. rewrite Hv. f_equal. lia.
    + rewrite IH.
      * cbn [toUpperCase parse36_from]. rewrite Hv. f_equal. lia.
      * apply N.Div0.div_lt_upper_bound.
        rewrite Nat2N.inj_succ, N.pow_succ_r' in Hn. exact Hn.
Qed.

Lemma toString36_fuel n : (n < 36 ^ N.of_nat (S (N.to_nat (N.log2 n))))%N.
Proof.
  rewrite Nat2N.inj_succ, N2Nat.id.
  destruct (N.eq_dec n 0%N) as [->|Hn]; [reflexivity|].
  apply N.lt_le_trans with (2 ^ N.succ (N.log2 n))%N.
  - apply N.log2_spec. lia.
  - apply N.pow_le_mono_l. lia.
Qed.

Lemma toString36_aux_upper (fuel : nat) : forall n (acc : string),
  Forall (fun c => isUpper36 c = true) (chars (toUpperCase acc)) ->
  Forall (fun c => isUpper36 c = true)
    (chars (toUpperCase (toString36_aux fuel n acc))).
Proof.
  induction fuel as [|fuel IH]; intros n acc Hacc; [exact Hacc|].
  cbn [toString36_aux]. cbv zeta.
  assert (Hd : (n mod 36 < 36)%N) by (apply N.mod_lt; lia).
  destruct (digit36_upper _ Hd) as [_ Hu].
  assert (Hacc' : Forall (fun c => isUpper36 c = true)
                    (chars (toUpperCase (String (digit36 (n mod 36)) acc)))).
  { cbn [toUpperCase chars]. apply Forall_cons_2; assumption. }
  destruct (n / 36 =? 0)%N; [exact Hacc'|]. apply IH. exact Hacc'.
Qed.

Lemma toString36_aux_length (fuel : nat) : forall n (acc : string),
  String.length acc <= String.length (toString36_aux fuel n acc) /\
  (fuel <> 0 -> String.length acc < String.length (toString36_aux fuel n acc)).
Proof.
  induction fuel as [|fuel IH]; intros n acc; [simpl; lia|].
  cbn [toString36_aux]. cbv zeta.
  destruct (n / 36 =? 0)%N.
  - simpl. lia.
  - destruct (IH (n / 36)%N (String (digit36 (n mod 36)) acc)) as [H _].
    simpl in H. lia.
Qed.

Lemma toUpperCase_length s : String.length (toUpperCase s) = String.length s.
Proof. induction s as [|c s IH]; simpl; congruence. Qed.

Lemma toUpperCase_no_lower s :
  Forall (fun c => isLower c = false) (chars (toUpperCase s)).
Proof.
  induction s as [|c s IH]; simpl; [apply Forall_nil_2|].
  apply Forall_cons_2; [apply upperAscii_not_lower|exact IH].
Qed.

Lemma substring_length (a len : nat) s :
  String.length (String.substring a len s) <= len.
Proof.
  revert a len. induction s as [|c s IH]; intros [|a] [|len]; simpl;
    try lia.
  - specialize (IH 0 len). lia.
  - specialize (IH a 0). lia.
  - specialize (IH a (S len)). lia.
Qed.

(** Two strings that agree after a first part of digits and upper-case
    letters followed by a hyphen have the same first part. *)
Lemma upper36_prefix_inj s : forall t (r r' : string),
  Forall (fun c => isUpper36 c = true) (chars s) ->
  Forall (fun c => isUpper36 c = true) (chars t) ->
  s ++ String "-" r = t ++ String "-" r' -> s = t.
Proof.
  induction s as [|c s IH]; intros [|c' t] r r' Hs Ht E; simpl in *.
  - reflexivity.
  - injection E as <- _. apply Forall_cons in Ht as [Hc _]. discriminate.
  - injection E as -> _. apply Forall_cons in Hs as [Hc _]. discriminate.
  - injection E as -> E.
    apply Forall_cons in Hs as [_ Hs]. apply Forall_cons in Ht as [_ Ht].
    f_equal. exact (IH t r r' Hs Ht E).
Qed.

Lemma toString36_read_back n : parse36 (toUpperCase (toString36 n)) = n.
Proof.
  unfold parse36, toString36.
  rewrite parse36_toString36_aux by apply toString36_fuel. reflexivity.
Qed.

(** X1. The time stamp part of a ticket id reads back, as a base-36
    numeral, to the [Date.now()] it was written from; so different times
    are written differently. *)
Theorem parse36_toString36 n :
  parse36 (toUpperCase (toString36 n)) = n /\
  (forall m, toString36 m = toString36 n -> m = n).
Proof.
  split; [apply toString36_read_back|].
  intros m E. rewrite <- (toString36_read_back m), E.
  apply toString36_read_back.
Qed.

Lemma toString36_upper n :
  Forall (fun c => isUpper36 c = true) (chars (toUpperCase (toString36 n))).
Proof. apply toString36_aux_upper. apply Forall_nil_2. Qed.

(** X2. Two documents without ticket id that are saved at different
    readings of [Date.now()] get different ticket ids, whatever the random
    draws are. *)
Theorem preSave_distinct_times env1 env2 doc1 doc2 :
  JS.truthy (ticketId doc1) = false ->
  JS.truthy (ticketId doc2) = false ->
  dateNow env1 <> dateNow env2 ->
  ticketId (preSave env1 doc1) <> ticketId (preSave env2 doc2).
Proof.
  intros H1 H2 Hne E. apply Hne.
  unfold preSave in E. rewrite H1, H2 in E. simpl in E.
  injection E as E.
  apply upper36_prefix_inj in E; try apply toString36_upper.
  rewrite <- (toString36_read_back (dateNow env1)), E.
  apply toString36_read_back.
Qed.

(** X3. The id the hook writes is 'COMP-', a non-empty time stamp of digits
    and upper-case letters, a hyphen, and at most six characters of the
    random draw, none of them a lower-case letter. *)
Theorem preSave_format env doc :
  JS.truthy (ticketId doc) = false ->
  exists stamp rnd : string,
    ticketId (preSave env doc) = Some ("COMP-" ++ stamp ++ "-" ++ rnd) /\
    stamp <> "" /\
    Forall (fun c => isUpper36 c = true) (chars stamp) /\
    String.length rnd <= 6 /\
    Forall (fun c => isLower c = false) (chars rnd).
Proof.
  intros H.
  exists (toUpperCase (toString36 (dateNow env))),
         (toUpperCase (substring_js 2 8 (random36 env))).
  split; [|split; [|split; [|split]]].
  - unfold preSave. rewrite H. reflexivity.
  - intros E. apply (f_equal String.length) in E.
    rewrite toUpperCase_length in E. unfold toString36 in E.
    destruct (toString36_aux_length (S (N.to_nat (N.log2 (dateNow env))))
                (dateNow env) "") as [_ Hl].
    specialize (Hl ltac:(discriminate)). simpl in E, Hl. lia.
  - apply toString36_upper.
  - rewrite toUpperCase_length. unfold substring_js.
    etransitivity; [apply substring_length|]. lia.
  - apply toUpperCase_no_lower.
Qed.

End TicketIds.

Lemma preSave_distinct_times_witness :
  ticketId (preSave (mkHookEnv 1730563200000 "0.4fzyo82mvyr") schemaDefaults)
    <> ticketId (preSave (mkHookEnv 1730563200001 "0.4fzyo82mvyr") schemaDefaults).
Proof.
  apply preSave_distinct_times.
  - reflexivity.
  - reflexivity.
  - discriminate.
Defined.

Lemma preSave_format_witness :
  exists stamp rnd : string,
    ticketId (preSave someEnv schemaDefaults) =
      Some ("COMP-" ++ stamp ++ "-" ++ rnd) /\
    stamp <> "" /\
    Forall (fun c => isUpper36 c = true) (chars stamp) /\
    String.length rnd <= 6 /\
    Forall (fun c => isLower c = false) (chars rnd).
Proof. apply preSave_format. reflexivity. Defined.

(** ** More on [addUpdate] *)

Section UpdateFacts.

Context {Store : Type} `{!Backend Store}.

Implicit Types (w : World Store) (doc : Complaint) (env : HookEnv)
  (cs : list UpdateCall).

Lemma addUpdate_status now env st msg by_ int w :
  status (this (snd (addUpdate now env st msg by_ int w))) =
    if JS.truthy st then default "" st else status (this w).
Proof.
  rewrite addUpdate_run, save_status. cbv zeta. simpl.
  destruct (JS.truthy st); reflexivity.
Qed.

Lemma replayStatus_app s0 (es es' : list UpdateEntry) :
  replayStatus s0 (es ++ es') = replayStatus (replayStatus s0 es) es'.
Proof. apply fold_left_app. Qed.

Lemma addUpdates_status cs : forall w,
  status (this (snd (addUpdates cs w))) =
    replayStatus (status (this w)) (map entryOf cs).
Proof.
  induction cs as [|c cs IH]; intros w; [reflexivity|].
  cbn [addUpdates map]. unfold bind.
  pose proof (addUpdate_status (call_now c) (call_env c) (call_status c)
                (call_message c) (call_updatedBy c) (call_internal c) w) as Hc.
  destruct (addUpdate _ _ _ _ _ _ w) as [r w1]. simpl in Hc.
  specialize (IH w1).
  destruct (addUpdates cs w1) as [rs w2]. simpl in *.
  rewrite IH, Hc. reflexivity.
Qed.

(** X4. The status of a document follows its updates: if it is the status
    the entries of [updates] lead to from some initial status, it still is
    after any run of [addUpdate] calls, whether they succeed or not. *)
Theorem status_follows_updates cs w s0 :
  status (this w) = replayStatus s0 (updates (this w)) ->
  status (this (snd (addUpdates cs w))) =
    replayStatus s0 (updates (this (snd (addUpdates cs w)))).
Proof.
  intros H.
  rewrite addUpdates_status, addUpdates_append, replayStatus_app, H.
  reflexivity.
Qed.

Lemma save_invalid env w :
  validStatus (status (this w)) = false -> save env w = (ValidationError, w).
Proof. intros H. unfold save, validate. rewrite H. reflexivity. Qed.

(** X5. Once the status in memory is outside the enum, every later call
    that carries no status fails with the validation error, and none of
    them writes to the store. *)
Theorem invalid_status_sticks cs : forall w,
  validStatus (status (this w)) = false ->
  Forall (fun c => JS.truthy (call_status c) = false) cs ->
  Forall (eq ValidationError) (fst (addUpdates cs w)) /\
  db (snd (addUpdates cs w)) = db w.
Proof.
  induction cs as [|c cs IH]; intros w Hv Hcs.
  - split; [apply Forall_nil_2|reflexivity].
  - apply Forall_cons in Hcs as [Hc Hcs].
    cbn [addUpdates]. unfold bind.
    rewrite addUpdate_run. cbv zeta. rewrite Hc.
    rewrite save_invalid by exact Hv.
    match goal with
    | |- context [addUpdates cs ?w1] => specialize (IH w1 Hv Hcs)
    end.
    destruct (addUpdates cs _) as [rs w2]. simpl in *.
    destruct IH as [IH1 IH2]. split; [|exact IH2].
    apply Forall_cons_2; [reflexivity|exact IH1].
Qed.

End UpdateFacts.

Lemma status_follows_updates_witness :
  status (this (snd (addUpdates twoCalls created))) =
    replayStatus "submitted" (updates (this (snd (addUpdates twoCalls created)))).
Proof. apply status_follows_updates. reflexivity. Defined.

Lemma invalid_status_sticks_witness :
  Forall (eq ValidationError) (fst (addUpdates [noteCall; noteCall] poisoned)) /\
  db (snd (addUpdates [noteCall; noteCall] poisoned)) = db poisoned.
Proof.
  apply invalid_status_sticks.
  - reflexivity.
  - apply Forall_cons_2; [reflexivity|].
    apply Forall_cons_2; [reflexivity|]. apply Forall_nil_2.
Defined.

(** ** More on the classifier and the queries *)

Section PriorityFacts.

Context {Store : Type}.
Implicit Types (w : World Store) (u s : float).

Lemma float_leb_zero_r (x c : float) :
  (x =? 0)%float = true -> (c <=? x)%float = (c <=? 0)%float.
Proof.
  rewrite FloatAxioms.eqb_spec, !FloatAxioms.leb_spec.
  change (Prim2SF 0) with (S754_zero false).
  destruct (Prim2SF x) as [[]|[]| |[] m e], (Prim2SF c) as [[]|[]| |[] m' e'];
    unfold SFeqb, SFleb; simpl; try reflexivity; try discriminate.
Qed.

(** A score at or above a positive threshold is neither zero nor NaN. *)
Lemma ge_truthy u c :
  (c <=? 0)%float = false -> JS.ge u c = true -> JS.truthyNumber u = true.
Proof.
  intros Hc Hu. unfold JS.ge in Hu. unfold JS.truthyNumber.
  destruct (u =? 0)%float eqn:Hz.
  - rewrite (float_leb_zero_r u c Hz) in Hu. congruence.
  - destruct (is_nan u) eqn:Hn; [|reflexivity].
    rewrite (FloatOrder.leb_nan_r u c Hn) in Hu. discriminate.
Qed.

(** The rule table rises with the urgency and with the negativity of the
    sentiment. *)
Lemma ruleTable_mono u1 u2 s1 s2 :
  (u1 <=? u2)%float = true -> (s2 <=? s1)%float = true ->
  rank (ruleTable u1 s1) <= rank (ruleTable u2 s2).
Proof.
  intros Hu Hs.
  pose proof (fun H => FloatOrder.leb_trans 8 u1 u2 H Hu) as M8.
  pose proof (fun H => FloatOrder.leb_trans 6 u1 u2 H Hu) as M6.
  pose proof (fun H => FloatOrder.leb_trans 4 u1 u2 H Hu) as M4.
  pose proof (fun H => FloatOrder.leb_trans 3 u1 u2 H Hu) as M3.
  pose proof (fun H => FloatOrder.leb_trans s2 s1 (-0.5) Hs H) as N5.
  pose proof (fun H => FloatOrder.leb_trans s2 s1 (-0.3) Hs H) as N3.
  unfold ruleTable, JS.ge, JS.le.
  repeat match goal with
         | H : ?a = true -> ?b = true |- _ =>
             destruct a eqn:?, b eqn:?;
             try (specialize (H eq_refl); discriminate); clear H
         end; simpl; lia.
Qed.

(** X7. Classifying a second time changes nothing and returns the same
    tier: the method reads only the scores, which it does not write. *)
Theorem calculatePriority_twice w :
  calculatePriority (snd (calculatePriority w)) = calculatePriority w.
Proof. rewrite !calculatePriority_run. reflexivity. Qed.

(** X8. On scores that are set, with urgency scores that are neither zero
    nor NaN, a higher urgency and a more negative sentiment never give a
    lower tier. *)
Theorem calculatePriority_monotone w1 w2 u1 u2 s1 s2 :
  urgencyScore (aiAnalysis (this w1)) = Some u1 ->
  urgencyScore (aiAnalysis (this w2)) = Some u2 ->
  score (sentiment (aiAnalysis (this w1))) = Some s1 ->
  score (sentiment (aiAnalysis (this w2))) = Some s2 ->
  JS.truthyNumber u1 = true -> JS.truthyNumber u2 = true ->
  JS.le u1 u2 = true -> JS.le s2 s1 = true ->
  rank (fst (calculatePriority w1)) <= rank (fst (calculatePriority w2)).
Proof.
  intros Hu1 Hu2 Hs1 Hs2 Ht1 Ht2 Hu Hs.
  rewrite (calculatePriority_rule_table w1 u1 s1 Hu1 Hs1 Ht1).
  rewrite (calculatePriority_rule_table w2 u2 s2 Hu2 Hs2 Ht2).
  apply ruleTable_mono; assumption.
Qed.

(** X9. When the urgency the method reads is the default 5 (the score is
    absent, zero or NaN, or 5 itself), the tier is Medium or High, never Low
    nor Critical, whatever the sentiment score. *)
Theorem calculatePriority_no_urgency w :
  JS.orNumber (urgencyScore (aiAnalysis (this w))) 5 = 5%float ->
  fst (calculatePriority w) = Medium \/ fst (calculatePriority w) = High.
Proof.
  intros H. rewrite calculatePriority_run. cbv zeta. simpl fst. rewrite H.
  unfold ruleTable. change (JS.ge 5 8) with false. change (JS.ge 5 6) with false.
  change (JS.ge 5 4) with true. change (JS.ge 5 3) with true. cbn [orb andb].
  destruct (JS.le _ _); auto.
Qed.

(** X10. After classification the urgency clause of the urgent query adds
    nothing: the document is selected exactly when its priority is Critical
    or High and its status is neither 'resolved' nor 'closed'. *)
Theorem urgent_after_classification w :
  let doc := this (snd (calculatePriority w)) in
  getUrgentComplaints_selects doc =
    (match priority doc with Critical | High => true | _ => false end)
    && negb (existsb (String.eqb (status doc)) ["resolved"; "closed"]).
Proof.
  cbv zeta. rewrite calculatePriority_run. cbv zeta.
  unfold getUrgentComplaints_selects. cbn [snd this priority aiAnalysis
    urgencyScore status set_priority].
  f_equal.
  destruct (urgencyScore (aiAnalysis (this w))) as [u|] eqn:Hu;
    [|apply orb_false_r].
  destruct (JS.ge u 7) eqn:H7; [|apply orb_false_r].
  rewrite orb_true_r.
  assert (Ht : JS.truthyNumber u = true) by (eapply ge_truthy; [|exact H7]; reflexivity).
  assert (H6 : JS.ge u 6 = true).
  { unfold JS.ge in *. apply (FloatOrder.leb_trans 6 7 u); [reflexivity|exact H7]. }
  cbn [JS.orNumber]. rewrite Ht. unfold ruleTable. rewrite H6. cbn [andb orb].
  destruct (JS.ge u 8 || JS.le _ _); reflexivity.
Qed.

End PriorityFacts.

Section QueryFacts.

Context {Store : Type} `{!Backend Store}.
Implicit Types (w : World Store).

(** X11. After [addUpdate] with a non-empty status the document in memory
    is the one [getByStatus] selects for that status, and with 'resolved'
    or 'closed' the urgent query no longer selects it, whatever its
    priority and urgency score. *)
Theorem addUpdate_then_queries now env s msg by_ int w :
  JS.truthyString s = true ->
  let doc := this (snd (addUpdate now env (Some s) msg by_ int w)) in
  getByStatus_selects s doc = true /\
  (s = "resolved" \/ s = "closed" -> getUrgentComplaints_selects doc = false).
Proof.
  intros Hs. cbv zeta.
  pose proof (addUpdate_status now env (Some s) msg by_ int w) as E.
  simpl in E. rewrite Hs in E.
  unfold getByStatus_selects, getUrgentComplaints_selects. rewrite E.
  split; [apply String.eqb_refl|].
  intros [-> | ->]; simpl; apply andb_false_r.
Qed.

(** X14. An update does not re-classify: [addUpdate] leaves the priority
    and the scores as they were, whatever it is given and whether it
    succeeds or not, so the classifier returns the same tier after the call
    as before it. *)
Theorem addUpdate_keeps_classification now env st msg by_ int w :
  let w' := snd (addUpdate now env st msg by_ int w) in
  priority (this w') = priority (this w) /\
  aiAnalysis (this w') = aiAnalysis (this w) /\
  fst (calculatePriority w') = fst (calculatePriority w).
Proof.
  cbv zeta.
  assert (H : priority (this (snd (addUpdate now env st msg by_ int w)))
              = priority (this w) /\
              aiAnalysis (this (snd (addUpdate now env st msg by_ int w)))
              = aiAnalysis (this w)).
  { rewrite addUpdate_run. cbv zeta. unfold save.
    destruct (validate _);
      [rewrite preSave_only_ticketId; destruct (write _ _)|];
      simpl; destruct (JS.truthy st); split; reflexivity. }
  destruct H as [Hp Ha]. split; [exact Hp|]. split; [exact Ha|].
  rewrite !calculatePriority_run. cbv zeta. simpl fst. rewrite Ha.
  reflexivity.
Qed.

End QueryFacts.

(** ** The virtuals *)

(** X12. For a creation time that is set and lies less than 2^53
    milliseconds from now, [ageInDays] is the number of whole days between
    the two times: it is 0 during the first 24 hours, never negative for a
    creation time in the past, and negative for one in the future. *)
Theorem ageInDays_whole_days (now createdAt : Z) :
  (Z.abs (now - createdAt) < 2 ^ 53)%Z ->
  exists a : Z,
    ageInDays now (Some createdAt) = Days a /\
    (86400000 * a <= now - createdAt < 86400000 * (a + 1))%Z /\
    ((createdAt <= now)%Z -> (0 <= a)%Z) /\
    ((createdAt <= now < createdAt + 86400000)%Z -> a = 0%Z) /\
    ((now < createdAt)%Z -> (a < 0)%Z).
Proof.
  intros Hb. exists ((now - createdAt) / 86400000)%Z.
  split.
  { unfold ageInDays.
    destruct (Z.ltb_spec (Z.abs (now - createdAt)) (2 ^ 53)); [reflexivity|lia]. }
  pose proof (Z.div_mod (now - createdAt) 86400000 ltac:(lia)) as Hdm.
  pose proof (Z.mod_pos_bound (now - createdAt) 86400000 ltac:(lia)) as Hm.
  repeat split; intros; lia.
Qed.

Lemma ageInDays_whole_days_witness :
  exists a : Z,
    ageInDays 1730563200000 (Some 1730476800001%Z) = Days a /\
    (86400000 * a <= 1730563200000 - 1730476800001 < 86400000 * (a + 1))%Z /\
    ((1730476800001 <= 1730563200000)%Z -> (0 <= a)%Z) /\
    ((1730476800001 <= 1730563200000 < 1730476800001 + 86400000)%Z -> a = 0%Z) /\
    ((1730563200000 < 1730476800001)%Z -> (a < 0)%Z).
Proof. apply ageInDays_whole_days. vm_compute. reflexivity. Defined.

Lemma concat_nonempty (sep : string) (l : list string) :
  Forall (fun p => p <> "") l -> String.concat sep l = "" -> l = [].
Proof.
  intros Hl E. destruct l as [|p [|q l]]; [reflexivity| |].
  - simpl in E. apply Forall_cons in Hl as [Hp _]. contradiction.
  - apply Forall_cons in Hl as [Hp _]. simpl in E.
    destruct p; [contradiction|discriminate].
Qed.

Lemma filterBoolean_nonempty (parts : list (option string)) :
  Forall (fun p => p <> "") (filterBoolean parts).
Proof.
  induction parts as [|[p|] parts IH]; simpl;
    [apply Forall_nil_2| |exact IH].
  destruct (JS.truthyString p) eqn:Hp; [|exact IH].
  apply Forall_cons_2; [|exact IH].
  intros ->. discriminate.
Qed.

Lemma filterBoolean_nil (parts : list (option string)) :
  filterBoolean parts = [] <-> Forall (fun p => JS.truthy p = false) parts.
Proof.
  induction parts as [|[p|] parts IH]; simpl.
  - split; [intros _; apply Forall_nil_2|reflexivity].
  - destruct (JS.truthyString p) eqn:Hp.
    + split; [discriminate|]. intros H. apply Forall_cons in H as [H _].
      simpl in H. congruence.
    + rewrite IH. split.
      * intros H. apply Forall_cons_2; [exact Hp|exact H].
      * intros H. apply Forall_cons in H as [_ H]. exact H.
  - rewrite IH. split.
    + intros H. apply Forall_cons_2; [reflexivity|exact H].
    + intros H. apply Forall_cons in H as [_ H]. exact H.
Qed.

Lemma append_length (s t : string) :
  String.length (s ++ t) = String.length s + String.length t.
Proof. induction s as [|c s IH]; simpl; [reflexivity|]. rewrite IH. reflexivity. Qed.

Lemma concat_length (l : list string) :
  String.length (String.concat ", " l) + 2 =
    list_sum (map String.length l) + 2 * length l \/ l = [].
Proof.
  induction l as [|p [|q l] IH]; [right; reflexivity|left|left].
  - simpl. lia.
  - destruct IH as [IH|IH]; [|discriminate].
    change (String.concat ", " (p :: q :: l))
      with (p ++ ", " ++ String.concat ", " (q :: l)).
    rewrite !append_length.
    cbn [map length] in *. unfold list_sum in *. cbn [fold_right] in *.
    change (String.length ", ") with 2. lia.
Qed.

(** X13. [fullAddress] is empty exactly when there is no address or none
    of its five parts is set (undefined and [''] alike); otherwise its
    length is that of the parts that are set plus two for each separator
    between them, so no separator stands at either end or next to a
    missing part. *)
Theorem fullAddress_parts (addr : option Address) :
  (fullAddress addr = "" <->
   match addr with
   | None => True
   | Some a => Forall (fun p => JS.truthy p = false) (addressParts a)
   end) /\
  (forall a, addr = Some a ->
     let set := filterBoolean (addressParts a) in
     set <> [] ->
     String.length (fullAddress addr) =
       list_sum (map String.length set) + 2 * (length set - 1)).
Proof.
  split.
  - destruct addr as [a|]; cbn [fullAddress]; [|tauto].
    rewrite <- filterBoolean_nil. split.
    + apply concat_nonempty, filterBoolean_nonempty.
    + intros ->. reflexivity.
  - intros a -> set Hne. cbn [fullAddress]. fold set.
    destruct (concat_length set) as [H|H]; [|contradiction].
    destruct set; [contradiction|]. simpl length in *. lia.
Qed.

Lemma fullAddress_parts_witness :
  String.length (fullAddress (Some someAddress)) = 31.
Proof.
  apply (proj2 (fullAddress_parts (Some someAddress)) someAddress eq_refl).
  discriminate.
Defined.

Lemma calculatePriority_monotone_witness :
  rank (fst (calculatePriority
               (mkWorld (set_scores (Some 4%float) (Some 0.1%float) schemaDefaults) tt)))
  <= rank (fst (calculatePriority
                  (mkWorld (set_scores (Some 6.5%float) (Some (-0.6)%float) schemaDefaults) tt))).
Proof.
  apply (calculatePriority_monotone _ _ 4%float 6.5%float 0.1%float (-0.6)%float);
    reflexivity.
Defined.

Lemma calculatePriority_no_urgency_witness :
  fst (calculatePriority
         (mkWorld (set_scores (Some 0%float) (Some (-1)%float) schemaDefaults) tt)) = Medium \/
  fst (calculatePriority
         (mkWorld (set_scores (Some 0%float) (Some (-1)%float) schemaDefaults) tt)) = High.
Proof. apply calculatePriority_no_urgency. reflexivity. Defined.

Lemma addUpdate_then_queries_witness :
  getUrgentComplaints_selects
    (this (snd (addUpdate 1730563200000 someEnv (Some "resolved") (Some "fixed")
                  None None created))) = false.
Proof.
  apply (proj2 (addUpdate_then_queries 1730563200000 someEnv "resolved"
                  (Some "fixed") None None created eq_refl)).
  left. reflexivity.
Defined.
